(** * time_tracker: a shallow embedding of [main.go] and its properties

    The program is a command dispatcher over a handful of SQL statements.
    [main.go] exists in two variants; the one embedded here is the later one,
    with the wage and tax rates, which contains the earlier one.  The
    embedding follows the source function by function:

    - Go values: [int] and [int64] as [Z] ([int] is taken to be 64 bits
      wide), [float64] as Rocq's primitive binary64 floats, [string] as
      [string] (a sequence of bytes), [time.Duration] as an [int64] count of
      nanoseconds, [time.Time] as an instant (nanoseconds since the Unix
      epoch);
    - the globals [db_dir] and [db], the tables behind the connection and the
      standard output are explicit state; every command is a function from
      the store to a result and a new store, and a call returns a value,
      returns an error, or panics;
    - the store is modelled by what the SQL statements of the source mean:
      tables as lists of rows in insertion order, a missing schema as an
      error of every statement, [sum], [coalesce], NULL and the arithmetic
      of the money query as the engine defines them.  The [start] column
      holds an instant and is compared as instants are ordered: the text the
      driver writes for a [time.Time] is not modelled, and its order is the
      order of instants when the process runs in UTC;
    - the library functions the program calls are modelled next to it:
      [strconv.ParseInt], and from package [time] the functions [Date],
      [AddDate] and [Add] with the algorithms of Go's implementation
      ([norm], [daysSinceEpoch], [absDate]), computed over mathematical
      integers, that is for the years the package can represent;
      [strconv.ParseFloat] is a parameter of the commands that call it. *)

From Stdlib Require Import ZArith List String Ascii Bool Lia Floats.
Import ListNotations.

Local Open Scope string_scope.
Local Open Scope Z_scope.

(** ** Go integers *)

Module GoInt.

Definition MinInt64 : Z := - 2 ^ 63.
Definition MaxInt64 : Z := 2 ^ 63 - 1.

Definition in_int64 (z : Z) : bool := (MinInt64 <=? z) && (z <=? MaxInt64).

(** Two's complement wrap-around of a mathematical integer into [int64]. *)
Definition wrap64 (z : Z) : Z := (z + 2 ^ 63) mod 2 ^ 64 - 2 ^ 63.

(** Unary minus on [int64]. *)
Definition neg64 (z : Z) : Z := wrap64 (- z).

End GoInt.

(** ** Errors and results *)

(** The errors the commands return, by the place that creates them. *)
Inductive error : Type :=
| ErrArgCount                  (* fmt.Errorf("Invalid amount/number of arguments") *)
| ErrSyntax (s : string)       (* strconv: invalid syntax *)
| ErrRange (s : string)        (* strconv: value out of range *)
| ErrNotANumber (e : error)    (* fmt.Errorf("Failed to parse argument as number: ...") *)
| ErrInvalidUnit (s : string)  (* fmt.Errorf("Duration with invalid unit: %s") *)
| ErrNoHome                    (* os.UserHomeDir failed *)
| ErrMkdir                     (* os.MkdirAll failed *)
| ErrNoSuchTable               (* storage: a table of the schema is missing *)
| ErrTableExists               (* storage: create table on an existing table *)
| ErrIntegerOverflow           (* storage: sum() overflowed int64 *)
| ErrScanNull.                 (* database/sql: converting NULL to a number *)

(** A Go call either returns a value, returns a non-nil [error], or panics
    (a run-time panic is not an [error]: nothing in the program recovers it). *)
Inductive result (A : Type) : Type :=
| Ok (a : A)
| Err (e : error)
| Panic.

Arguments Ok {A} a.
Arguments Err {A} e.
Arguments Panic {A}.

Definition bind {A B} (r : result A) (k : A -> result B) : result B :=
  match r with
  | Ok a => k a
  | Err e => Err e
  | Panic => Panic
  end.

Notation "x <- r ;; k" := (bind r (fun x => k))
  (at level 100, r at next level, right associativity).

(** ** strconv *)

Module strconv.

Definition digit_of (c : ascii) : option Z :=
  let n := Z.of_N (N_of_ascii c) in
  if (48 <=? n) && (n <=? 57) then Some (n - 48) else None.

(** The digit loop of [ParseUint] in base 10: [None] on a byte that is
    not a decimal digit. *)
Fixpoint digits (s : string) (acc : Z) : option Z :=
  match s with
  | EmptyString => Some acc
  | String c s' =>
      match digit_of c with
      | Some d => digits s' (acc * 10 + d)
      | None => None
      end
  end.

(** [strconv.ParseInt(s, 10, 64)]: an optional sign and at least one
    decimal digit; a value outside [int64] is a range error. *)
Definition ParseInt (s : string) : result Z :=
  match s with
  | EmptyString => Err (ErrSyntax s)
  | String c rest =>
      let neg := Ascii.eqb c "-" in
      let body := if Ascii.eqb c "+" || neg then rest else s in
      match body with
      | EmptyString => Err (ErrSyntax s)
      | _ =>
          match digits body 0 with
          | None => Err (ErrSyntax s)
          | Some un =>
              let n := if neg then - un else un in
              if GoInt.in_int64 n then Ok n else Err (ErrRange s)
          end
      end
  end.

End strconv.

(** ** Package time *)

Module time.

(** [time.Duration]: an [int64] count of nanoseconds. *)
Definition Duration : Type := Z.

Definition Nanosecond : Duration := 1.
Definition Second : Duration := 1000000000.
Definition Minute : Duration := 60 * Second.
Definition Hour : Duration := 60 * Minute.

(** [time.Time]: an instant, as nanoseconds since the Unix epoch.  Go keeps
    seconds and nanoseconds apart with [0 <= nsec < 1e9]; the pair is
    [(t / 1e9, t mod 1e9)]. *)
Definition Time : Type := Z.

Definition secondsPerMinute : Z := 60.
Definition secondsPerHour : Z := 60 * secondsPerMinute.
Definition secondsPerDay : Z := 24 * secondsPerHour.
Definition daysPer400Years : Z := 365 * 400 + 97.
Definition daysPer100Years : Z := 365 * 100 + 24.
Definition daysPer4Years : Z := 365 * 4 + 1.

Definition absoluteZeroYear : Z := -292277022399.
Definition unixToInternal : Z :=
  (1969 * 365 + 1969 / 4 - 1969 / 100 + 1969 / 400) * secondsPerDay.
Definition internalToUnix : Z := - unixToInternal.
Definition absoluteToInternal : Z := -9223371966579724800.
Definition internalToAbsolute : Z := - absoluteToInternal.
Definition unixToAbsolute : Z := unixToInternal + internalToAbsolute.

(** [norm(hi, lo, base)]: bring [lo] into [0 <= lo < base], carrying into
    [hi]. *)
Definition norm (hi lo base : Z) : Z * Z :=
  let '(hi, lo) :=
    if lo <? 0 then
      let n := Z.quot (- lo - 1) base + 1 in (hi - n, lo + n * base)
    else (hi, lo) in
  if lo >=? base then
    let n := Z.quot lo base in (hi + n, lo - n * base)
  else (hi, lo).

Definition isLeap (year : Z) : bool :=
  (Z.rem year 4 =? 0) &&
  (negb (Z.rem year 100 =? 0) || (Z.rem year 400 =? 0)).

(** [daysBefore[m]]: days in a non-leap year before month [m + 1]. *)
Definition daysBefore (m : Z) : Z :=
  nth (Z.to_nat m)
      [0; 31; 59; 90; 120; 151; 181; 212; 243; 273; 304; 334; 365] 0.

Definition daysSinceEpoch (year : Z) : Z :=
  let y := year - absoluteZeroYear in
  let n := y / 400 in
  let y := y - 400 * n in
  let d := daysPer400Years * n in
  let n := y / 100 in
  let y := y - 100 * n in
  let d := d + daysPer100Years * n in
  let n := y / 4 in
  let y := y - 4 * n in
  let d := d + daysPer4Years * n in
  let n := y in
  d + 365 * n.

(** [time.Date(year, month, day, hour, min, sec, nsec, time.UTC)]. *)
Definition Date (year month day hour min sec nsec : Z) : Time :=
  let m := month - 1 in
  let '(year, m) := norm year m 12 in
  let month := m + 1 in
  let '(sec, nsec) := norm sec nsec 1000000000 in
  let '(min, sec) := norm min sec 60 in
  let '(hour, min) := norm hour min 60 in
  let '(day, hour) := norm day hour 24 in
  let d := daysSinceEpoch year in
  let d := d + daysBefore (month - 1) in
  let d := if isLeap year && (3 <=? month) then d + 1 else d in
  let d := d + (day - 1) in
  let abs := d * secondsPerDay in
  let abs := abs + (hour * secondsPerHour + min * secondsPerMinute + sec) in
  let unix := abs + (absoluteToInternal + internalToUnix) in
  unix * 1000000000 + nsec.

(** [t.abs()] for a time in UTC: seconds since the absolute zero year. *)
Definition abs (t : Time) : Z := t / 1000000000 + unixToAbsolute.

Definition nsec (t : Time) : Z := t mod 1000000000.

(** [absDate(abs, true)]: the calendar date [(year, month, day)] of an
    absolute second count. *)
Definition absDate (abs : Z) : Z * Z * Z :=
  let d := abs / secondsPerDay in
  let n := d / daysPer400Years in
  let y := 400 * n in
  let d := d - daysPer400Years * n in
  let n := d / daysPer100Years in
  let n := n - Z.shiftr n 2 in
  let y := y + 100 * n in
  let d := d - daysPer100Years * n in
  let n := d / daysPer4Years in
  let y := y + 4 * n in
  let d := d - daysPer4Years * n in
  let n := d / 365 in
  let n := n - Z.shiftr n 2 in
  let y := y + n in
  let d := d - 365 * n in
  let year := y + absoluteZeroYear in
  let day := d in
  if isLeap year && (day =? 31 + 29 - 1) then (year, 2, 29)
  else
    let day := if isLeap year && (31 + 29 - 1 <? day) then day - 1 else day in
    let month := day / 31 in
    let end_ := daysBefore (month + 1) in
    let '(month, begin) :=
      if day >=? end_ then (month + 1, end_) else (month, daysBefore month) in
    (year, month + 1, day - begin + 1).

(** [absClock(abs)]: hour, minute and second within the day. *)
Definition absClock (abs : Z) : Z * Z * Z :=
  let sec := abs mod secondsPerDay in
  let hour := sec / secondsPerHour in
  let sec := sec - hour * secondsPerHour in
  let min := sec / secondsPerMinute in
  let sec := sec - min * secondsPerMinute in
  (hour, min, sec).

(** [t.AddDate(years, months, days)]. *)
Definition AddDate (t : Time) (years months days : Z) : Time :=
  let '(year, month, day) := absDate (abs t) in
  let '(hour, min, sec) := absClock (abs t) in
  Date (year + years) (month + months) (day + days) hour min sec (nsec t).

(** [t.Add(d)]. *)
Definition Add (t : Time) (d : Duration) : Time := t + d.

End time.

(** ** The civil calendar, as a reference for the window *)

Module Calendar.




(** Month [m] of year [y] for any integer [m]: month 13 is January of
    the next year, month 0 is December of the year before. *)
Definition normal_month (y m : Z) : Z * Z :=
  (y + (m - 1) / 12, (m - 1) mod 12 + 1).

End Calendar.

(** ** float64 *)

Module Float64.

Definition is_NaN (x : float) : bool :=
  match Prim2SF x with S754_nan => true | _ => false end.

(** Neither NaN nor an infinity. *)
Definition is_finite (x : float) : bool :=
  match Prim2SF x with
  | S754_zero _ | S754_finite _ _ _ => true
  | _ => false
  end.

(** Positive or negative zero. *)
Definition is_zero (x : float) : bool :=
  match Prim2SF x with S754_zero _ => true | _ => false end.

(** Conversion of an integer to [float64], rounding to nearest even. *)
Definition of_Z (z : Z) : float :=
  SF2Prim (binary_normalize prec emax z 0 false).

(** The integer part of a finite float (truncation towards zero). *)
Definition trunc (x : float) : option Z :=
  match Prim2SF x with
  | S754_zero _ => Some 0
  | S754_finite s m e =>
      let v := if 0 <=? e then Zpos m * 2 ^ e else Zpos m / 2 ^ (- e) in
      Some (if s then - v else v)
  | _ => None
  end.

(** Go's conversion [int64(x)] of a [float64]: the fraction is discarded.
    When the value does not fit (or is NaN or an infinity) the language
    leaves the result to the implementation; the value taken here is the
    one of amd64, the smallest [int64]. *)
Definition to_int64 (x : float) : Z :=
  match trunc x with
  | Some z => if GoInt.in_int64 z then z else GoInt.MinInt64
  | None => GoInt.MinInt64
  end.

End Float64.

(** ** The store *)

(** A row of [time_entries]. *)
Record Entry : Type := mkEntry {
  id : Z;
  start : time.Time;
  duration : time.Duration;
  description : string
}.

(** The three tables of the schema.  A [real] column holds a float or NULL
    ([None]); the rows of a table are in insertion order. *)
Record Tables : Type := mkTables {
  time_entries : list Entry;
  tax : list (option float);
  wage : list (option float)
}.

(** The persisted store: [None] until [init] has created the schema. *)
Definition Store : Type := option Tables.

Module sqlite.

(** Binding a [float64] parameter: the engine stores NaN as NULL. *)
Definition bind_double (x : float) : option float :=
  if Float64.is_NaN x then None else Some x.

(** The result of real arithmetic: NaN becomes NULL. *)
Definition real (x : float) : option float := bind_double x.

Definition mul (a b : option float) : option float :=
  match a, b with
  | Some x, Some y => real (x * y)
  | _, _ => None
  end.

Definition sub (a b : option float) : option float :=
  match a, b with
  | Some x, Some y => real (x - y)
  | _, _ => None
  end.

Definition coalesce {A} (a : option A) (d : A) : A :=
  match a with Some x => x | None => d end.

(** [select rate from t limit 1] as a scalar subquery: the first row, NULL
    when the table is empty. *)
Definition first_rate (rows : list (option float)) : option float :=
  match rows with
  | r :: _ => r
  | [] => None
  end.

(** [sum(x)] over integer rows, in row order: NULL over no rows, an
    "integer overflow" error as soon as a partial sum leaves [int64]. *)
Fixpoint sum_from (acc : Z) (xs : list Z) : result Z :=
  match xs with
  | [] => Ok acc
  | x :: xs' =>
      if GoInt.in_int64 (acc + x) then sum_from (acc + x) xs'
      else Err ErrIntegerOverflow
  end.

Definition sum (xs : list Z) : result (option Z) :=
  match xs with
  | [] => Ok None
  | _ => s <- sum_from 0 xs ;; Ok (Some s)
  end.

(** [where start > ? and start < ?]. *)
Definition in_window (lo hi : time.Time) (e : Entry) : bool :=
  (lo <? start e) && (start e <? hi).

(** [rows.Scan(&x)] of a nullable value into a Go number. *)
Definition scan {A} (v : option A) : result A :=
  match v with
  | Some x => Ok x
  | None => Err ErrScanNull
  end.

End sqlite.

(** The schema and rows [initialize] creates. *)
Definition initial_tables : Tables :=
  mkTables [] [Some 0%float] [Some 0%float].

(** ** The commands *)

(** What the process reads from its environment. *)
Record Env : Type := mkEnv {
  home : option string;   (* os.UserHomeDir(), None when it fails *)
  mkdir_ok : bool;        (* whether os.MkdirAll succeeds *)
  now : time.Time         (* time.Now() *)
}.

Definition initialize (env : Env) (db : Store) : result unit * Store :=
  if negb (mkdir_ok env) then (Err ErrMkdir, db)
  else
    match db with
    | Some _ => (Err ErrTableExists, db)
    | None => (Ok tt, Some initial_tables)
    end.

(** [update tax set rate = ?]: every row of the table is overwritten. *)
Definition update_tax (rate : float) (db : Store) : result unit * Store :=
  match db with
  | None => (Err ErrNoSuchTable, db)
  | Some t =>
      (Ok tt,
       Some (mkTables (time_entries t)
                      (map (fun _ => sqlite.bind_double rate) (tax t))
                      (wage t)))
  end.

(** [update wage set rate = ?]. *)
Definition update_wage (rate : float) (db : Store) : result unit * Store :=
  match db with
  | None => (Err ErrNoSuchTable, db)
  | Some t =>
      (Ok tt,
       Some (mkTables (time_entries t)
                      (tax t)
                      (map (fun _ => sqlite.bind_double rate) (wage t))))
  end.

(** [insert into time_entries (duration, start, description) values (?,?,?)]:
    the row gets the next id. *)
Definition insert_entry (d : time.Duration) (s : time.Time) (descr : string)
    (db : Store) : result unit * Store :=
  match db with
  | None => (Err ErrNoSuchTable, db)
  | Some t =>
      let e := mkEntry (Z.of_nat (List.length (time_entries t)) + 1) s d descr in
      (Ok tt, Some (mkTables (time_entries t ++ [e])%list (tax t) (wage t)))
  end.

(** [select coalesce(sum(duration), 0) from time_entries
     where start > ? and start < ?], scanned into a [time.Duration]. *)
Definition query_total (lo hi : time.Time) (db : Store)
    : result time.Duration :=
  match db with
  | None => Err ErrNoSuchTable
  | Some t =>
      s <- sqlite.sum
             (map duration (filter (sqlite.in_window lo hi) (time_entries t))) ;;
      Ok (sqlite.coalesce s 0)
  end.

(** The expression of the money query over an integer sum and the two rate
    tables. *)
Definition money_expr (s : Z) (wage_rows tax_rows : list (option float))
    : option float :=
  sqlite.mul
    (sqlite.mul
       (sqlite.real (Float64.of_Z s / 3600000000000))
       (Some (sqlite.coalesce (sqlite.first_rate wage_rows) 0%float)))
    (sqlite.sub (Some 1%float)
                (Some (sqlite.coalesce (sqlite.first_rate tax_rows) 0%float))).

(** [select (coalesce(sum(duration), 0) / 3600000000000.0)
            * coalesce((select rate from wage limit 1), 0)
            * (1 - coalesce((select rate from tax limit 1), 0))
     from time_entries where start > ? and start < ?],
    scanned into a [float64]. *)
Definition query_total_money (lo hi : time.Time) (db : Store)
    : result float :=
  match db with
  | None => Err ErrNoSuchTable
  | Some t =>
      s <- sqlite.sum
             (map duration (filter (sqlite.in_window lo hi) (time_entries t))) ;;
      sqlite.scan (money_expr (sqlite.coalesce s 0) (wage t) (tax t))
  end.

(** [darg[len(darg)-1]] and [darg[:len(darg)-1]]: the last byte of a string
    and what precedes it; [None] on the empty string, where the index
    expression panics. *)
Fixpoint split_last (s : string) : option (string * ascii) :=
  match s with
  | EmptyString => None
  | String c s' =>
      match split_last s' with
      | None => Some (EmptyString, c)
      | Some (p, l) => Some (String c p, l)
      end
  end.

(** The [switch] on the unit byte in [add]. *)
Definition unit_of (c : ascii) : option time.Duration :=
  if Ascii.eqb c "h" then Some time.Hour
  else if Ascii.eqb c "m" then Some time.Minute
  else if Ascii.eqb c "s" then Some time.Second
  else None.

(** The window of [total] and [total_money]: [start] and [end]. *)
Definition window (month_i year_i : Z) : time.Time * time.Time :=
  let start := time.Date year_i month_i 0 0 0 0 0 in
  let end_ := time.AddDate start 0 1 0 in
  (start, end_).

Definition total (args : list string) (db : Store) : result time.Duration :=
  match args with
  | [month_s; year_s] =>
      month_i <- strconv.ParseInt month_s ;;
      year_i <- strconv.ParseInt year_s ;;
      let '(start, end_) := window month_i year_i in
      query_total start end_ db
  | _ => Err ErrArgCount
  end.

Definition total_money (args : list string) (db : Store) : result float :=
  match args with
  | [month_s; year_s] =>
      month_i <- strconv.ParseInt month_s ;;
      year_i <- strconv.ParseInt year_s ;;
      let '(start, end_) := window month_i year_i in
      query_total_money start end_ db
  | _ => Err ErrArgCount
  end.

(** What the process writes to its standard output, one constructor per
    format string of [main] ([set_wage] prints the texts of [set_tax]). *)
Inductive Msg : Type :=
| MsgSetupFailed (e : error)     (* "Could not setup program: %s\n" *)
| MsgUsage                       (* the usage text *)
| MsgAddFailed (e : error)       (* "Could not add a new entry: %s\n" *)
| MsgAdded                       (* "Successfully added entry\n" *)
| MsgTotalFailed (e : error)     (* "Could not get total: %s\n" *)
| MsgTotal (d : time.Duration)   (* "Total: %s" *)
| MsgTotalMoney (m : float)      (* "Total: %f Kč" *)
| MsgInitFailed (e : error)      (* "Could not initialize database: %s\n" *)
| MsgInitialized                 (* "Successfully initialized database\n" *)
| MsgSetRateFailed (e : error)   (* "Failed to set tax rate: %e\n" *)
| MsgSetRate (r : float).        (* "Successfully set tax rate to: %f\n" *)

(** The state of the process: the globals [db_dir] and [db] (the connection
    handle, open or not), the persisted store behind the connection, and the
    output so far. *)
Record Proc : Type := mkProc {
  db_dir : string;
  db_open : bool;
  store : Store;
  stdout : list Msg
}.

(** The process as it starts on a store: no directory, no connection. *)
Definition start_proc (disk : Store) : Proc := mkProc "" false disk [].

Definition set_store (db : Store) (p : Proc) : Proc :=
  mkProc (db_dir p) (db_open p) db (stdout p).

(** How the process ends. *)
Inductive termination : Type :=
| Returned              (* main returns: exit status 0 *)
| OsExit (code : Z)     (* os.Exit(code) *)
| Crashed.              (* an unrecovered panic: exit status 2 *)

Definition exit_status (t : termination) : Z :=
  match t with
  | Returned => 0
  | OsExit code => code mod 256
  | Crashed => 2
  end.

Definition printf (m : Msg) (p : Proc) : Proc :=
  mkProc (db_dir p) (db_open p) (store p) (stdout p ++ [m])%list.

Definition print_usage (p : Proc) : Proc := printf MsgUsage p.

(** [setup()]: resolve the home directory, set [db_dir], open [db]. *)
Definition setup (env : Env) (p : Proc) : result unit * Proc :=
  match home env with
  | None => (Err ErrNoHome, p)
  | Some h =>
      (Ok tt,
       mkProc (h ++ "/" ++ ".config/time_tracker/")%string true
              (store p) (stdout p))
  end.

(** [cleanup()]: [db.Close()]. *)
Definition cleanup (p : Proc) : Proc :=
  mkProc (db_dir p) false (store p) (stdout p).

Section Commands.

(** [strconv.ParseFloat(s, 64)]: the float, or the error it returns. *)
Variable ParseFloat : string -> result float.

Definition set_tax (args : list string) (db : Store)
    : result float * Store :=
  match args with
  | [a] =>
      match ParseFloat a with
      | Ok rate =>
          match update_tax rate db with
          | (Ok _, db') => (Ok rate, db')
          | (Err e, db') => (Err e, db')
          | (Panic, db') => (Panic, db')
          end
      | Err e => (Err (ErrNotANumber e), db)
      | Panic => (Panic, db)
      end
  | _ => (Err ErrArgCount, db)
  end.

Definition set_wage (args : list string) (db : Store)
    : result float * Store :=
  match args with
  | [a] =>
      match ParseFloat a with
      | Ok rate =>
          match update_wage rate db with
          | (Ok _, db') => (Ok rate, db')
          | (Err e, db') => (Err e, db')
          | (Panic, db') => (Panic, db')
          end
      | Err e => (Err (ErrNotANumber e), db)
      | Panic => (Panic, db)
      end
  | _ => (Err ErrArgCount, db)
  end.

(** Lines 84-101 of [add]: from the duration argument to [duration]. *)
Definition parse_duration (darg : string) : result time.Duration :=
  match split_last darg with
  | None => Panic                          (* index out of range [-1] *)
  | Some (prefix, c) =>
      match unit_of c with
      | None => Err (ErrInvalidUnit darg)
      | Some unit =>
          n <- ParseFloat prefix ;;
          Ok (Float64.to_int64 (Float64.of_Z unit * n))
      end
  end.

Definition add (env : Env) (args : list string) (db : Store)
    : result unit * Store :=
  match args with
  | [] => (Panic, db)                      (* args[0]: index out of range *)
  | darg :: words =>
      match parse_duration darg with
      | Ok duration =>
          let start_time := time.Add (now env) (GoInt.neg64 duration) in
          let description := String.concat " " words in
          insert_entry duration start_time description db
      | Err e => (Err e, db)
      | Panic => (Panic, db)
      end
  end.

(** One arm of the [switch] in [main] that falls through to [cleanup()]. *)
Definition finish (p : Proc) : termination * Proc := (Returned, cleanup p).

Definition main (env : Env) (Args : list string) (disk : Store)
    : termination * Proc :=
  match setup env (start_proc disk) with
  | (Err e, p) => (OsExit (-1), printf (MsgSetupFailed e) p)
  | (Panic, p) => (Crashed, p)
  | (Ok _, p) =>
      match Args with
      | [] | [_] => (OsExit (-1), print_usage p)
      | _ :: cmd :: rest =>
          if cmd =? "add" then
            match add env rest (store p) with
            | (Err e, db') => finish (printf (MsgAddFailed e) (set_store db' p))
            | (Ok _, db') => finish (printf MsgAdded (set_store db' p))
            | (Panic, db') => (Crashed, set_store db' p)
            end
          else if cmd =? "total" then
            match total rest (store p) with
            | Err e => finish (printf (MsgTotalFailed e) p)
            | Ok d => finish (printf (MsgTotal d) p)
            | Panic => (Crashed, p)
            end
          else if cmd =? "total_money" then
            match total_money rest (store p) with
            | Err e => finish (printf (MsgTotalFailed e) p)
            | Ok m => finish (printf (MsgTotalMoney m) p)
            | Panic => (Crashed, p)
            end
          else if cmd =? "init" then
            match initialize env (store p) with
            | (Err e, db') => finish (printf (MsgInitFailed e) (set_store db' p))
            | (Ok _, db') => finish (printf MsgInitialized (set_store db' p))
            | (Panic, db') => (Crashed, set_store db' p)
            end
          else if cmd =? "set_tax" then
            match set_tax rest (store p) with
            | (Err e, db') =>
                (Returned, printf (MsgSetRateFailed e) (set_store db' p))
            | (Ok rate, db') =>
                (Returned, printf (MsgSetRate rate) (set_store db' p))
            | (Panic, db') => (Crashed, set_store db' p)
            end
          else if cmd =? "set_wage" then
            match set_wage rest (store p) with
            | (Err e, db') =>
                (Returned, printf (MsgSetRateFailed e) (set_store db' p))
            | (Ok rate, db') =>
                (Returned, printf (MsgSetRate rate) (set_store db' p))
            | (Panic, db') => (Crashed, set_store db' p)
            end
          else finish (print_usage p)
      end
  end%string.

End Commands.

(** The command names of the [switch]. *)
Definition commands : list string :=
  ["add"; "total"; "total_money"; "init"; "set_tax"; "set_wage"]%string.

(** ** An instance of [strconv.ParseFloat] for decimal literals

    [ParseFloat_decimal] reads what [strconv.ParseFloat(s, 64)] reads when
    [s] is a decimal literal (sign, digits, fraction, decimal exponent) or
    one of the special values, and rounds to the nearest float, ties to even.
    Hexadecimal literals, which Go also accepts, are outside it.  It is the
    instance at which the commands are run on concrete arguments. *)

Module DecimalFloat.

Definition lower (c : ascii) : ascii :=
  let n := N_of_ascii c in
  if ((65 <=? n) && (n <=? 90))%N then ascii_of_N (n + 32) else c.

Fixpoint lower_string (s : string) : string :=
  match s with
  | EmptyString => EmptyString
  | String c s' => String (lower c) (lower_string s')
  end.

(** Leading decimal digits of [s]: their value on top of [acc], their
    number on top of [n], and the rest of the string. *)
Fixpoint read_digits (s : string) (acc n : Z) : Z * Z * string :=
  match s with
  | EmptyString => (acc, n, s)
  | String c s' =>
      match strconv.digit_of c with
      | Some d => read_digits s' (acc * 10 + d) (n + 1)
      | None => (acc, n, s)
      end
  end.

Definition read_sign (s : string) : bool * string :=
  match s with
  | String c s' =>
      if Ascii.eqb c "-" then (true, s')
      else if Ascii.eqb c "+" then (false, s')
      else (false, s)
  | EmptyString => (false, s)
  end.

(** The decimal exponent part: empty, or [e]/[E], a sign and digits up to
    the end of the string. *)
Definition read_exponent (s : string) : option Z :=
  match s with
  | EmptyString => Some 0
  | String c s' =>
      if Ascii.eqb (lower c) "e" then
        let '(neg, s'') := read_sign s' in
        match read_digits s'' 0 0 with
        | (e, n, EmptyString) =>
            if 0 <? n then Some (if neg then - e else e) else None
        | _ => None
        end
      else None
  end.

(** The float nearest to [m * 10 ^ e10], for [m <> 0] written with
    [ndigits] digits.  A negative exponent divides with a sticky bit
    (rounding to odd on more than 64 bits) before the final rounding. *)
Definition round (orig : string) (m e10 ndigits : Z) : result float :=
  if 400 <? e10 then Err (ErrRange orig)
  else if ndigits + e10 <? -330 then
    Ok (if m <? 0 then (-0)%float else 0%float)
  else
    let sf :=
      if 0 <=? e10 then binary_normalize prec emax (m * 10 ^ e10) 0 false
      else
        let den := 10 ^ (- e10) in
        let s := Z.max 0 (Z.log2 den + 70 - Z.log2 (Z.abs m)) in
        let num := Z.abs m * 2 ^ s in
        let q := Z.lor (num / den) (if num mod den =? 0 then 0 else 1) in
        binary_normalize prec emax (if m <? 0 then - q else q) (- s) false in
    match sf with
    | S754_infinity _ => Err (ErrRange orig)
    | _ => Ok (SF2Prim sf)
    end.

Definition ParseFloat_decimal (s : string) : result float :=
  let '(neg, body) := read_sign s in
  let word := lower_string body in
  if ((word =? "inf") || (word =? "infinity"))%string then
    Ok (if neg then neg_infinity else infinity)
  else if (lower_string s =? "nan")%string then Ok nan
  else
    let '(ip, ni, s1) := read_digits body 0 0 in
    let '(m, nf, s2) :=
      match s1 with
      | String "." r => read_digits r ip 0
      | _ => (ip, 0, s1)
      end in
    if ni + nf =? 0 then Err (ErrSyntax s)
    else
      match read_exponent s2 with
      | None => Err (ErrSyntax s)
      | Some e =>
          if m =? 0 then Ok (if neg then (-0)%float else 0%float)
          else round s (if neg then - m else m) (e - nf) (ni + nf)
      end.

End DecimalFloat.

(** ** Sample runs *)

Module Sample.

(** 2024-03-10 12:00:00 UTC. *)
Definition noon_march_10 : time.Time := 1710072000 * 1000000000.

Definition env : Env := mkEnv (Some "/home/user") true noon_march_10.

(** The window of [total 3 2024]. *)
Definition feb_29 : time.Time := time.Date 2024 2 29 0 0 0 0.
Definition mar_29 : time.Time := time.Date 2024 3 29 0 0 0 0.

(** Four entries: on the start of the window, inside it twice, on its
    end; wage 100 per hour, tax one half. *)
Definition tables : Tables :=
  mkTables
    [ mkEntry 1 feb_29 (1 * time.Hour) "on the start";
      mkEntry 2 (feb_29 + 1) (2 * time.Hour) "first instant inside";
      mkEntry 3 (mar_29 - 1) (30 * time.Minute) "last instant inside";
      mkEntry 4 mar_29 (4 * time.Hour) "on the end" ]
    [Some 0.5%float]
    [Some 100%float].

(** No entries, and a wage rate of infinity (as [set_wage inf] stores it). *)
Definition infinite_wage : Tables :=
  mkTables [] [Some 0%float] [Some infinity].

End Sample.

(** The nanoseconds of a unit byte, as the float [float64(unit)]. *)
Definition unit_float (u : ascii) : float :=
  if Ascii.eqb u "h" then 3600000000000%float
  else if Ascii.eqb u "m" then 60000000000%float
  else 1000000000%float.

(** ** Auxiliary calendar functions

    Pieces of [time.Date] and [absDate] named for the proofs. *)

Module CalendarAux.
Import time.

(** The days a date lies after the absolute epoch, as [Date] counts them
    for a month already in [1 .. 12]. *)
Definition days_of (year month day : Z) : Z :=
  daysSinceEpoch year + daysBefore (month - 1)
  + (if isLeap year && (3 <=? month) then 1 else 0) + (day - 1).




End CalendarAux.

(** ** The earlier variant of [main.go]

    The second program of the source: no rate tables, no [total_money], and
    an [add] that takes its description from [args[1]].  The duration
    parsing, the window and [total] are the same text as in the later
    variant.  Its store has the one table [time_entries]; [MsgUsage] stands
    for the usage text of this variant. *)

Module Legacy.

(** The persisted store: [None] until [init] has created [time_entries]. *)
Definition Store : Type := option (list Entry).

Definition initialize (env : Env) (db : Store) : result unit * Store :=
  if negb (mkdir_ok env) then (Err ErrMkdir, db)
  else
    match db with
    | Some _ => (Err ErrTableExists, db)
    | None => (Ok tt, Some [])
    end.

(** [insert into time_entries (duration, start, description) values (?,?,?)]. *)
Definition insert_entry (d : time.Duration) (s : time.Time) (descr : string)
    (db : Store) : result unit * Store :=
  match db with
  | None => (Err ErrNoSuchTable, db)
  | Some es =>
      (Ok tt,
       Some (es ++ [mkEntry (Z.of_nat (List.length es) + 1) s d descr])%list)
  end.

(** [select coalesce(sum(duration), 0) from time_entries
     where start > ? and start < ?]. *)
Definition query_total (lo hi : time.Time) (db : Store)
    : result time.Duration :=
  match db with
  | None => Err ErrNoSuchTable
  | Some es =>
      s <- sqlite.sum (map duration (filter (sqlite.in_window lo hi) es)) ;;
      Ok (sqlite.coalesce s 0)
  end.

Definition total (args : list string) (db : Store) : result time.Duration :=
  match args with
  | [month_s; year_s] =>
      month_i <- strconv.ParseInt month_s ;;
      year_i <- strconv.ParseInt year_s ;;
      let '(start, end_) := window month_i year_i in
      query_total start end_ db
  | _ => Err ErrArgCount
  end.

Record Proc : Type := mkProc {
  db_dir : string;
  db_open : bool;
  store : Store;
  stdout : list Msg
}.

Definition start_proc (disk : Store) : Proc := mkProc "" false disk [].

Definition set_store (db : Store) (p : Proc) : Proc :=
  mkProc (db_dir p) (db_open p) db (stdout p).

Definition printf (m : Msg) (p : Proc) : Proc :=
  mkProc (db_dir p) (db_open p) (store p) (stdout p ++ [m])%list.

Definition print_usage (p : Proc) : Proc := printf MsgUsage p.

Definition setup (env : Env) (p : Proc) : result unit * Proc :=
  match home env with
  | None => (Err ErrNoHome, p)
  | Some h =>
      (Ok tt,
       mkProc (h ++ "/" ++ ".config/time_tracker/")%string true
              (store p) (stdout p))
  end.

Definition cleanup (p : Proc) : Proc :=
  mkProc (db_dir p) false (store p) (stdout p).

Section Commands.

Variable ParseFloat : string -> result float.

(** [add] of the earlier variant: the description is [args[1]], read when
    the arguments of [db.Exec] are built, after the duration is parsed. *)
Definition add (env : Env) (args : list string) (db : Store)
    : result unit * Store :=
  match args with
  | [] => (Panic, db)                      (* args[0]: index out of range *)
  | darg :: rest =>
      match parse_duration ParseFloat darg with
      | Ok duration =>
          let start_time := time.Add (now env) (GoInt.neg64 duration) in
          match rest with
          | [] => (Panic, db)              (* args[1]: index out of range *)
          | descr :: _ => insert_entry duration start_time descr db
          end
      | Err e => (Err e, db)
      | Panic => (Panic, db)
      end
  end.

Definition finish (p : Proc) : termination * Proc := (Returned, cleanup p).

Definition main (env : Env) (Args : list string) (disk : Store)
    : termination * Proc :=
  match setup env (start_proc disk) with
  | (Err e, p) => (OsExit (-1), printf (MsgSetupFailed e) p)
  | (Panic, p) => (Crashed, p)
  | (Ok _, p) =>
      match Args with
      | [] | [_] => (OsExit (-1), print_usage p)
      | _ :: cmd :: rest =>
          if cmd =? "add" then
            match add env rest (store p) with
            | (Err e, db') => finish (printf (MsgAddFailed e) (set_store db' p))
            | (Ok _, db') => finish (printf MsgAdded (set_store db' p))
            | (Panic, db') => (Crashed, set_store db' p)
            end
          else if cmd =? "total" then
            match total rest (store p) with
            | Err e => finish (printf (MsgTotalFailed e) p)
            | Ok d => finish (printf (MsgTotal d) p)
            | Panic => (Crashed, p)
            end
          else if cmd =? "init" then
            match initialize env (store p) with
            | (Err e, db') => finish (printf (MsgInitFailed e) (set_store db' p))
            | (Ok _, db') => finish (printf MsgInitialized (set_store db' p))
            | (Panic, db') => (Crashed, set_store db' p)
            end
          else finish (print_usage p)
      end
  end%string.

End Commands.

End Legacy.

(** ** Vocabulary of the further properties *)

(** The rows of [time_entries], none without a schema. *)
Definition entries_of (db : Store) : list Entry :=
  match db with
  | Some t => time_entries t
  | None => []
  end.

(** Each rate table holds exactly one row (or there is no schema yet). *)
Definition one_rate_row (db : Store) : Prop :=
  match db with
  | Some t => List.length (tax t) = 1%nat /\ List.length (wage t) = 1%nat
  | None => True
  end.


(** Whether the command name is one of the two rate setters. *)
Definition sets_rate (Args : list string) : bool :=
  match Args with
  | _ :: cmd :: _ => existsb (String.eqb cmd) ["set_tax"; "set_wage"]%string
  | _ => false
  end.

(** What the earlier variant sees of a store of the later one. *)
Definition entries_view (db : Store) : Legacy.Store :=
  option_map time_entries db.


(** Whether the process ended in a panic. *)
Definition crashed (t : termination) : bool :=
  match t with Crashed => true | _ => false end.

(** Whether [os.UserHomeDir] succeeds, so that [setup] does. *)
Definition has_home (env : Env) : bool :=
  match home env with Some _ => true | None => false end.


(** * Properties *)

(** ** Sample evaluations *)

Example Date_epoch : time.Date 1970 1 1 0 0 0 0 = 0.
Proof. reflexivity. Qed.

Example Date_2024_3_0 : time.Date 2024 3 0 0 0 0 0 = 1709164800 * 1000000000.
Proof. reflexivity. Qed.

Example absDate_2024_3_0 :
  time.absDate (time.abs (time.Date 2024 3 0 0 0 0 0)) = (2024, 2, 29).
Proof. reflexivity. Qed.

Example AddDate_jan31 :
  time.AddDate (time.Date 2023 2 0 0 0 0 0) 0 1 0 = time.Date 2023 3 3 0 0 0 0.
Proof. reflexivity. Qed.

Example ParseInt_ex :
  (strconv.ParseInt "-12", strconv.ParseInt "+7", strconv.ParseInt "1_0",
   strconv.ParseInt "9223372036854775808", strconv.ParseInt "-")
  = (Ok (-12), Ok 7, Err (ErrSyntax "1_0"),
     Err (ErrRange "9223372036854775808"), Err (ErrSyntax "-")).
Proof. reflexivity. Qed.

Example ParseFloat_decimal_ex :
  List.map DecimalFloat.ParseFloat_decimal
    ["1.5"; "-2"; "0.1"; ".5"; "5."; "1e3"; "2.5E-1"; "Inf"; "-infinity";
     "1e400"; "h"; ""; "1_0"; "1e"; "."; "-1e30"; "123456789012345678901234567890e-29"]%string
  = [Ok 1.5%float; Ok (-2)%float; Ok 0x1.999999999999ap-4%float; Ok 0.5%float;
   Ok 5%float;
     Ok 1000%float; Ok 0.25%float; Ok infinity; Ok neg_infinity;
     Err (ErrRange "1e400"); Err (ErrSyntax "h"); Err (ErrSyntax "");
     Err (ErrSyntax "1_0"); Err (ErrSyntax "1e"); Err (ErrSyntax ".");
     Ok (-0x1.93e5939a08ceap+99)%float; Ok 0x1.3c0ca428c59fbp+0%float].
Proof. vm_compute. reflexivity. Qed.

(** ** Calendar arithmetic *)

Module TimeFacts.
Import time CalendarAux.

Lemma norm_spec (hi lo base : Z) :
  0 < base -> norm hi lo base = (hi + lo / base, lo mod base).
Proof.
  intros Hb. unfold norm.
  destruct (lo <? 0) eqn:Hneg.
  - apply Z.ltb_lt in Hneg.
    rewrite Z.quot_div_nonneg by lia.
    assert (Hq : (- lo - 1) / base + 1 = - (lo / base))
      by (Z.div_mod_to_equations; nia).
    rewrite Hq.
    assert (Hlt : (lo + - (lo / base) * base >=? base) = false).
    { rewrite Z.geb_leb. apply Z.leb_gt. Z.div_mod_to_equations. nia. }
    rewrite Hlt. f_equal; [lia | rewrite Z.mod_eq by lia; lia].
  - apply Z.ltb_ge in Hneg.
    destruct (lo >=? base) eqn:Hge.
    + rewrite Z.geb_leb in Hge. apply Z.leb_le in Hge.
      rewrite Z.quot_div_nonneg by lia.
      f_equal. rewrite Z.mod_eq by lia. lia.
    + rewrite Z.geb_leb in Hge. apply Z.leb_gt in Hge.
      rewrite Z.div_small, Z.mod_small by lia. f_equal. lia.
Qed.

Lemma norm_0 (hi base : Z) : 0 < base -> norm hi 0 base = (hi, 0).
Proof.
  intros Hb. rewrite norm_spec by lia.
  rewrite Z.div_0_l, Z.mod_0_l by lia. f_equal. lia.
Qed.





Lemma Date_midnight (year month day : Z) :
  Date year month day 0 0 0 0 =
  (let '(y, m) := Calendar.normal_month year month in
   days_of y m day * secondsPerDay + (absoluteToInternal + internalToUnix))
  * 1000000000.
Proof.
  unfold Date, Calendar.normal_month, days_of.
  rewrite norm_spec by lia.
  rewrite !norm_0 by lia.
  cbv zeta iota beta.
  replace ((month - 1) mod 12 + 1 - 1) with ((month - 1) mod 12) by lia.
  destruct (isLeap (year + (month - 1) / 12) && (3 <=? (month - 1) mod 12 + 1));
    unfold secondsPerHour, secondsPerMinute; lia.
Qed.

















Lemma Date_day0_before_day1 (year month : Z) :
  Date year month 0 0 0 0 0 =
  Date year month 1 0 0 0 0 - secondsPerDay * 1000000000.
Proof.
  rewrite !Date_midnight.
  destruct (Calendar.normal_month year month) as [ny nm].
  unfold days_of. lia.
Qed.





End TimeFacts.

(** ** The window of the two totals *)




(** ** The storage engine *)


Lemma sum_from_no_panic (xs : list Z) (acc : Z) :
  sqlite.sum_from acc xs <> Panic.
Proof.
  revert acc. induction xs as [| x xs IH]; intros acc; cbn.
  - discriminate.
  - destruct (GoInt.in_int64 (acc + x)); [apply IH | discriminate].
Qed.




(** ** The reporting window *)

Lemma total_parsed (m y : Z) (month_s year_s : string) (db : Store) :
  strconv.ParseInt month_s = Ok m ->
  strconv.ParseInt year_s = Ok y ->
  total [month_s; year_s] db =
  query_total (fst (window m y)) (snd (window m y)) db.
Proof.
  intros Hm Hy. unfold total, window. rewrite Hm, Hy.
  cbn [bind fst snd]. reflexivity.
Qed.

Lemma total_money_parsed (m y : Z) (month_s year_s : string) (db : Store) :
  strconv.ParseInt month_s = Ok m ->
  strconv.ParseInt year_s = Ok y ->
  total_money [month_s; year_s] db =
  query_total_money (fst (window m y)) (snd (window m y)) db.
Proof.
  intros Hm Hy. unfold total_money, window. rewrite Hm, Hy.
  cbn [bind fst snd]. reflexivity.
Qed.



(** ** float64 arithmetic in the money query *)

Module FloatFacts.
Import Float64.

Lemma is_NaN_mul_l (x y : float) : is_NaN x = true -> is_NaN (x * y) = true.
Proof.
  unfold is_NaN. rewrite mul_spec.
  destruct (Prim2SF x); try discriminate. reflexivity.
Qed.

Lemma is_NaN_mul_r (x y : float) : is_NaN y = true -> is_NaN (x * y) = true.
Proof.
  unfold is_NaN. rewrite mul_spec.
  destruct (Prim2SF y); try discriminate.
  destruct (Prim2SF x); reflexivity.
Qed.

Lemma is_zero_mul (z w : float) :
  is_zero z = true -> is_finite w = true -> is_zero (z * w) = true.
Proof.
  unfold is_zero, is_finite. rewrite mul_spec.
  destruct (Prim2SF z); try discriminate.
  destruct (Prim2SF w); try discriminate; reflexivity.
Qed.

Lemma is_zero_not_NaN (x : float) : is_zero x = true -> is_NaN x = false.
Proof.
  unfold is_zero, is_NaN. destruct (Prim2SF x); try discriminate; reflexivity.
Qed.

(** The money expression is the float product, with NULL for NaN: a NaN
    in an intermediate result makes the product NaN. *)
Lemma money_expr_product (s : Z) (wage_rows tax_rows : list (option float)) :
  money_expr s wage_rows tax_rows =
  sqlite.real
    (Float64.of_Z s / 3600000000000
     * sqlite.coalesce (sqlite.first_rate wage_rows) 0
     * (1 - sqlite.coalesce (sqlite.first_rate tax_rows) 0))%float.
Proof.
  unfold money_expr, sqlite.sub, sqlite.mul, sqlite.real, sqlite.bind_double.
  set (h := (Float64.of_Z s / 3600000000000)%float).
  set (w := sqlite.coalesce (sqlite.first_rate wage_rows) 0%float).
  set (k := (1 - sqlite.coalesce (sqlite.first_rate tax_rows) 0)%float).
  destruct (is_NaN h) eqn:Hh; cbv beta iota.
  { now rewrite (is_NaN_mul_l (h * w) k (is_NaN_mul_l h w Hh)). }
  destruct (is_NaN (h * w)) eqn:Hhw; cbv beta iota.
  { now rewrite (is_NaN_mul_l (h * w) k Hhw). }
  destruct (is_NaN k) eqn:Hk; cbv beta iota.
  { now rewrite (is_NaN_mul_r (h * w) k Hk). }
  reflexivity.
Qed.

(** A product that starts with zero is zero or NaN. *)
Lemma zero_product (w k : float) :
  is_NaN (0 * w * k) = false -> is_zero (0 * w * k) = true.
Proof.
  unfold is_NaN, is_zero. rewrite !mul_spec.
  change (Prim2SF 0) with (S754_zero false).
  destruct (Prim2SF w), (Prim2SF k); cbn; try discriminate; reflexivity.
Qed.

Lemma zero_hours : (Float64.of_Z 0 / 3600000000000)%float = 0%float.
Proof. reflexivity. Qed.

End FloatFacts.

(** ** The money total *)


(** C6, amended. On an entry table without rows [total] returns the zero
    duration, without error.  [total_money] computes
    [0 * wage * (1 - tax)]: it returns that product, a float zero, without
    error, unless the product is NaN, which needs an infinite stored rate;
    the NaN comes back as NULL and [total_money] returns the scan error. *)
Theorem C6_empty_table_totals
    (m y : Z) (month_s year_s : string) (t : Tables)
    (Hm : strconv.ParseInt month_s = Ok m)
    (Hy : strconv.ParseInt year_s = Ok y)
    (Hempty : time_entries t = []) :
  let w := sqlite.coalesce (sqlite.first_rate (wage t)) 0%float in
  let k := (1 - sqlite.coalesce (sqlite.first_rate (tax t)) 0)%float in
  let p := (0 * w * k)%float in
  total [month_s; year_s] (Some t) = Ok 0
  /\ total_money [month_s; year_s] (Some t) =
     (if Float64.is_NaN p then Err ErrScanNull else Ok p)
  /\ (Float64.is_NaN p = false -> Float64.is_zero p = true)
  /\ (Float64.is_finite w = true -> Float64.is_finite k = true ->
      Float64.is_NaN p = false).
Proof.
  intros w k p. split; [| split; [| split]].
  - rewrite (total_parsed m y) by assumption.
    unfold query_total. now rewrite Hempty.
  - rewrite (total_money_parsed m y) by assumption.
    unfold query_total_money. rewrite Hempty. cbn [filter map sqlite.sum bind].
    rewrite FloatFacts.money_expr_product.
    cbn [sqlite.coalesce]. rewrite FloatFacts.zero_hours.
    fold w k p. unfold sqlite.real, sqlite.bind_double, sqlite.scan.
    now destruct (Float64.is_NaN p).
  - apply FloatFacts.zero_product.
  - intros Hw Hk. apply FloatFacts.is_zero_not_NaN.
    apply FloatFacts.is_zero_mul; [| exact Hk].
    apply FloatFacts.is_zero_mul; [reflexivity | exact Hw].
Qed.

(** ** The duration argument of [add] *)

Lemma split_last_app (prefix : string) (u : ascii) :
  split_last (prefix ++ String u "") = Some (prefix, u).
Proof.
  induction prefix as [| c p IH]; cbn; [reflexivity |].
  now rewrite IH.
Qed.

Lemma unit_of_cases (u : ascii) :
  unit_of u =
  if Ascii.eqb u "h" then Some 3600000000000
  else if Ascii.eqb u "m" then Some 60000000000
  else if Ascii.eqb u "s" then Some 1000000000
  else None.
Proof. reflexivity. Qed.

Lemma unit_of_other (u : ascii) :
  ~ In u ["h"; "m"; "s"]%char -> unit_of u = None.
Proof.
  intros H. unfold unit_of.
  destruct (Ascii.eqb_spec u "h") as [-> | _]; [exfalso; apply H; cbn; tauto |].
  destruct (Ascii.eqb_spec u "m") as [-> | _]; [exfalso; apply H; cbn; tauto |].
  destruct (Ascii.eqb_spec u "s") as [-> | _]; [exfalso; apply H; cbn; tauto |].
  reflexivity.
Qed.

Lemma unit_of_float (u : ascii) :
  In u ["h"; "m"; "s"]%char ->
  exists unit, unit_of u = Some unit /\ Float64.of_Z unit = unit_float u.
Proof.
  cbn. intros [<- | [<- | [<- | []]]]; eexists; split; reflexivity.
Qed.


Module IntFacts.
Import GoInt.

Lemma to_int64_range (x : float) : in_int64 (Float64.to_int64 x) = true.
Proof.
  unfold Float64.to_int64.
  destruct (Float64.trunc x) as [z |]; [| reflexivity].
  destruct (in_int64 z) eqn:Hz; [exact Hz | reflexivity].
Qed.

Lemma neg64_in_range (d : Z) :
  in_int64 d = true -> d <> MinInt64 -> neg64 d = - d.
Proof.
  unfold in_int64, neg64, wrap64, MinInt64, MaxInt64.
  intros H Hmin. apply andb_prop in H as [Hlo Hhi].
  apply Z.leb_le in Hlo, Hhi.
  rewrite Z.mod_small by lia. lia.
Qed.

Lemma neg64_MinInt64 : neg64 MinInt64 = MinInt64.
Proof. reflexivity. Qed.

End IntFacts.

(** C9, amended. [add] checks neither the range nor the sign of the number
    it reads: whenever the literal parses and the unit is known, it inserts
    an entry whose duration is the converted product, negative or not, and
    whose start is [now.Add(-duration)].  That start is the current time
    minus the duration, later than now for a negative duration, except for
    the smallest [int64], whose negation wraps around: there the start is
    the current time plus the (negative) duration. *)
Theorem C9_add_records_any_duration
    (ParseFloat : string -> result float) (env : Env)
    (prefix : string) (u : ascii) (unit : time.Duration) (n : float)
    (words : list string) (t : Tables)
    (Hu : unit_of u = Some unit)
    (Hn : ParseFloat prefix = Ok n) :
  let d := Float64.to_int64 (Float64.of_Z unit * n) in
  let e := mkEntry (Z.of_nat (List.length (time_entries t)) + 1)
                   (time.Add (now env) (GoInt.neg64 d)) d
                   (String.concat " " words) in
  add ParseFloat env ((prefix ++ String u "") :: words) (Some t) =
    (Ok tt, Some (mkTables (time_entries t ++ [e])%list (tax t) (wage t)))
  /\ (d <> GoInt.MinInt64 -> start e = now env - d)
  /\ (d <> GoInt.MinInt64 -> d < 0 -> now env < start e)
  /\ (d = GoInt.MinInt64 -> start e = now env + d).
Proof.
  intros d e.
  split; [| split; [| split]].
  - unfold add, parse_duration. rewrite split_last_app, Hu, Hn. reflexivity.
  - intros Hd. unfold e, time.Add. cbn [start].
    rewrite IntFacts.neg64_in_range; [lia | apply IntFacts.to_int64_range | exact Hd].
  - intros Hd Hneg. unfold e, time.Add. cbn [start].
    rewrite IntFacts.neg64_in_range; [lia | apply IntFacts.to_int64_range | exact Hd].
  - intros Hd. unfold e, time.Add. cbn [start].
    now rewrite Hd, IntFacts.neg64_MinInt64.
Qed.

(** C2 (the code departs from it). [add] indexes [args[0]] before any
    check: without arguments it panics, and the process crashes without a
    message and without [cleanup]. *)
Theorem C2_add_without_arguments_panics
    (ParseFloat : string -> result float) (env : Env) (db : Store)
    (prog h : string) (mk : bool) (nw : time.Time) :
  let run := main ParseFloat (mkEnv (Some h) mk nw) [prog; "add"] db in
  add ParseFloat env [] db = (Panic, db)
  /\ fst run = Crashed
  /\ stdout (snd run) = []
  /\ db_open (snd run) = true.
Proof. repeat split; reflexivity. Qed.

(** ** The rate setters *)

(** C5. With any number of arguments other than one, [set_tax] and
    [set_wage] fail with the argument-count error and leave the store as it
    was. *)
Theorem C5_rate_setters_argument_count
    (ParseFloat : string -> result float) (args : list string) (db : Store)
    (Hlen : List.length args <> 1%nat) :
  set_tax ParseFloat args db = (Err ErrArgCount, db)
  /\ set_wage ParseFloat args db = (Err ErrArgCount, db).
Proof.
  destruct args as [| a [| b rest]]; cbn in Hlen; try contradiction;
    split; reflexivity.
Qed.

(** ** The dispatcher *)

Lemma not_command (cmd : string) :
  ~ In cmd commands ->
  (cmd =? "add")%string = false /\ (cmd =? "total")%string = false
  /\ (cmd =? "total_money")%string = false /\ (cmd =? "init")%string = false
  /\ (cmd =? "set_tax")%string = false /\ (cmd =? "set_wage")%string = false.
Proof.
  intros H. unfold commands in H. cbn [In] in H.
  repeat split; apply String.eqb_neq; intros ->; apply H; tauto.
Qed.

(** C7 (the code departs from it). After a successful setup: without a
    command name the process prints the usage text and exits through
    [os.Exit(-1)], a non-zero status; with a command name that is not one of
    the six, it prints the same usage text, but then runs [cleanup] and
    returns from [main], exit status 0. *)
Theorem C7_usage_and_exit_status
    (ParseFloat : string -> result float) (env : Env) (h : string)
    (Args : list string) (db : Store)
    (Hhome : home env = Some h) :
  let run := main ParseFloat env Args db in
  ((List.length Args < 2)%nat ->
     fst run = OsExit (-1)
     /\ stdout (snd run) = [MsgUsage]
     /\ exit_status (fst run) = 255)
  /\ (forall prog cmd rest,
        Args = prog :: cmd :: rest -> ~ In cmd commands ->
        fst run = Returned
        /\ stdout (snd run) = [MsgUsage]
        /\ db_open (snd run) = false
        /\ store (snd run) = db
        /\ exit_status (fst run) = 0).
Proof.
  intros run. unfold run, main, setup. rewrite Hhome. split.
  - intros Hlen.
    destruct Args as [| a [| b rest]]; cbn in Hlen; try lia;
      repeat split; reflexivity.
  - intros prog cmd rest -> Hcmd.
    destruct (not_command cmd Hcmd) as (H1 & H2 & H3 & H4 & H5 & H6).
    rewrite H1, H2, H3, H4, H5, H6.
    repeat split; reflexivity.
Qed.

Lemma total_no_panic (args : list string) (db : Store) : total args db <> Panic.
Proof.
  unfold total.
  destruct args as [| a [| b [| c rest]]]; try discriminate.
  destruct (strconv.ParseInt a) as [m | e |] eqn:Ha; cbn [bind];
    try discriminate.
  - destruct (strconv.ParseInt b) as [y | e |] eqn:Hb; cbn [bind];
      try discriminate.
    + destruct (window m y) as [lo hi]. unfold query_total.
      destruct db as [t |]; [| discriminate].
      unfold sqlite.sum.
      destruct (map duration _) as [| x xs]; [discriminate |].
      pose proof (sum_from_no_panic (x :: xs) 0) as Hs.
      destruct (sqlite.sum_from 0 (x :: xs)); cbn [bind];
        try discriminate. now contradiction Hs.
    + unfold strconv.ParseInt in Hb. destruct b as [| c s]; [discriminate |].
      destruct (if (Ascii.eqb c "+" || Ascii.eqb c "-")%bool then s
                else String c s); [discriminate |].
      destruct (strconv.digits _ 0); [| discriminate].
      destruct (GoInt.in_int64 _); discriminate.
  - unfold strconv.ParseInt in Ha. destruct a as [| c s]; [discriminate |].
    destruct (if (Ascii.eqb c "+" || Ascii.eqb c "-")%bool then s
              else String c s); [discriminate |].
    destruct (strconv.digits _ 0); [| discriminate].
    destruct (GoInt.in_int64 _); discriminate.
Qed.

(** Decide the comparisons of two literal command names in the goal. *)
Ltac eval_command_names :=
  repeat match goal with
  | |- context [String.eqb ?a ?b] =>
      let v := eval vm_compute in (String.eqb a b) in
      match v with
      | true => change (String.eqb a b) with true
      | false => change (String.eqb a b) with false
      end
  end.

(** C8 (the code departs from it). The arms of [set_tax] and [set_wage]
    return from [main] before [cleanup()]: whatever the arguments and the
    outcome, the connection opened by [setup] is still open when the process
    ends.  The arm of [total], like the other arms, does close it. *)
Theorem C8_rate_setters_skip_cleanup
    (ParseFloat : string -> result float)
    (h : string) (mk : bool) (nw : time.Time)
    (prog : string) (rest : list string) (db : Store) :
  let env := mkEnv (Some h) mk nw in
  db_open (snd (main ParseFloat env (prog :: "set_tax" :: rest) db)) = true
  /\ db_open (snd (main ParseFloat env (prog :: "set_wage" :: rest) db)) = true
  /\ db_open (snd (main ParseFloat env (prog :: "total" :: rest) db)) = false.
Proof.
  intros env. unfold main, setup. cbn [home env].
  eval_command_names. cbv iota.
  split; [| split].
  - destruct (set_tax ParseFloat rest _) as [[r | e |] db']; reflexivity.
  - destruct (set_wage ParseFloat rest _) as [[r | e |] db']; reflexivity.
  - pose proof (total_no_panic rest db) as Hp. cbn [store start_proc].
    destruct (total rest db); [reflexivity | reflexivity | now contradiction Hp].
Qed.

(** ** The theorems at concrete inputs *)




(** C6 as stated fails on a store without entries whose wage rate is
    infinite, the state [set_wage inf] leaves: 0 times infinity is NaN, the
    query yields NULL and [total_money] returns the scan error. *)
Lemma C6_counterexample :
  set_wage DecimalFloat.ParseFloat_decimal ["inf"] (Some initial_tables) =
    (Ok infinity, Some Sample.infinite_wage)
  /\ time_entries Sample.infinite_wage = []
  /\ total_money ["3"; "2024"] (Some Sample.infinite_wage) = Err ErrScanNull.
Proof. repeat split; vm_compute; reflexivity. Qed.

Lemma C6_witness :
  strconv.ParseInt "3" = Ok 3
  /\ strconv.ParseInt "2024" = Ok 2024
  /\ time_entries initial_tables = []
  /\ total ["3"; "2024"] (Some initial_tables) = Ok 0
  /\ total_money ["3"; "2024"] (Some initial_tables) = Ok 0%float.
Proof.
  destruct (C6_empty_table_totals 3 2024 "3" "2024" initial_tables
              eq_refl eq_refl eq_refl)
    as (Htotal & Hmoney & _).
  split; [reflexivity |]. split; [reflexivity |]. split; [reflexivity |].
  split; [exact Htotal |].
  rewrite Hmoney. reflexivity.
Defined.


(** C9 as stated fails where the product is the smallest [int64]:
    [-9223372036.854776] is read as the float -9223372036.854776, its
    product with 1e9 is exactly -2^63, the negation of that duration wraps
    around, and the entry starts 2^63 nanoseconds before now, not after. *)
Lemma C9_counterexample :
  add DecimalFloat.ParseFloat_decimal Sample.env ["-9223372036.854776s"]
      (Some initial_tables) =
    (Ok tt,
     Some (mkTables
             [mkEntry 1 (now Sample.env - 2 ^ 63) (- 2 ^ 63) ""]
             [Some 0%float] [Some 0%float]))
  /\ - 2 ^ 63 < 0
  /\ now Sample.env - 2 ^ 63 < now Sample.env
  /\ now Sample.env - 2 ^ 63 <> now Sample.env - (- 2 ^ 63).
Proof.
  split; [vm_compute; reflexivity |].
  split; [reflexivity |]. split; [reflexivity |].
  vm_compute. discriminate.
Qed.

Lemma C9_witness :
  unit_of "h" = Some time.Hour
  /\ DecimalFloat.ParseFloat_decimal "-2" = Ok (-2)%float
  /\ add DecimalFloat.ParseFloat_decimal Sample.env ["-2h"; "to"; "come"]
         (Some initial_tables) =
     (Ok tt,
      Some (mkTables
              [mkEntry 1 (now Sample.env + 2 * time.Hour) (- 2 * time.Hour)
                       "to come"]
              [Some 0%float] [Some 0%float])).
Proof.
  split; [reflexivity |]. split; [reflexivity |].
  destruct (C9_add_records_any_duration DecimalFloat.ParseFloat_decimal
              Sample.env "-2" "h" time.Hour (-2)%float ["to"; "come"]%string
              initial_tables eq_refl eq_refl)
    as (Hadd & _).
  change "-2h"%string with ("-2" ++ String "h" "")%string.
  rewrite Hadd. vm_compute. reflexivity.
Defined.

Lemma C5_witness :
  List.length ["0.2"; "0.3"]%string <> 1%nat
  /\ set_tax DecimalFloat.ParseFloat_decimal ["0.2"; "0.3"]
             (Some Sample.tables) = (Err ErrArgCount, Some Sample.tables)
  /\ set_wage DecimalFloat.ParseFloat_decimal ["0.2"; "0.3"]
              (Some Sample.tables) = (Err ErrArgCount, Some Sample.tables).
Proof.
  split; [discriminate |].
  apply (C5_rate_setters_argument_count DecimalFloat.ParseFloat_decimal
           ["0.2"; "0.3"]%string (Some Sample.tables)).
  discriminate.
Defined.

(** An unknown command name: the usage text is printed, and the process
    ends with exit status 0. *)
Example unknown_command_exits_zero :
  let run := main DecimalFloat.ParseFloat_decimal Sample.env
                  ["time_tracker"; "report"] (Some Sample.tables) in
  ~ In "report"%string commands
  /\ stdout (snd run) = [MsgUsage]
  /\ exit_status (fst run) = 0.
Proof.
  split.
  - cbn. intros [H | [H | [H | [H | [H | [H | []]]]]]]; discriminate.
  - split; reflexivity.
Qed.

Lemma C7_witness :
  let run := main DecimalFloat.ParseFloat_decimal Sample.env
                  ["time_tracker"] None in
  home Sample.env = Some "/home/user"%string
  /\ (List.length ["time_tracker"%string] < 2)%nat
  /\ fst run = OsExit (-1)
  /\ stdout (snd run) = [MsgUsage]
  /\ exit_status (fst run) = 255.
Proof.
  split; [reflexivity |]. split; [cbn; lia |].
  apply (C7_usage_and_exit_status DecimalFloat.ParseFloat_decimal Sample.env
           "/home/user" ["time_tracker"]%string None eq_refl).
  cbn. lia.
Defined.

(** The three runs of the dispatcher that end without [cleanup] or with
    status 0 where the usage text is shown. *)
Example dispatcher_runs :
  main DecimalFloat.ParseFloat_decimal Sample.env
       ["time_tracker"; "set_tax"; "0.25"] (Some initial_tables) =
    (Returned,
     mkProc "/home/user/.config/time_tracker/" true
            (Some (mkTables [] [Some 0.25%float] [Some 0%float]))
            [MsgSetRate 0.25%float])
  /\ main DecimalFloat.ParseFloat_decimal Sample.env
          ["time_tracker"; "add"] (Some initial_tables) =
    (Crashed,
     mkProc "/home/user/.config/time_tracker/" true (Some initial_tables) [])
  /\ main DecimalFloat.ParseFloat_decimal Sample.env
          ["time_tracker"; "total"; "3"; "2024"] (Some Sample.tables) =
    (Returned,
     mkProc "/home/user/.config/time_tracker/" false (Some Sample.tables)
            [MsgTotal 9000000000000]).
Proof. repeat split; vm_compute; reflexivity. Qed.

(** * Further properties *)

(** ** The shape of the window *)

Module WindowFacts.
Import time CalendarAux.











End WindowFacts.



(** March 2024 ends on 29 March, April 2024 starts on 31 March: an entry
    of 30 March is in neither total.  February 2023 runs to 3 March and
    overlaps March 2023, which starts on 28 February. *)
Example windows_2024 :
  window 3 2024 =
    (time.Date 2024 2 29 0 0 0 0, time.Date 2024 3 29 0 0 0 0)
  /\ window 4 2024 =
    (time.Date 2024 3 31 0 0 0 0, time.Date 2024 5 1 0 0 0 0)
  /\ window 2 2023 =
    (time.Date 2023 1 31 0 0 0 0, time.Date 2023 3 3 0 0 0 0)
  /\ window 3 2023 =
    (time.Date 2023 2 28 0 0 0 0, time.Date 2023 3 28 0 0 0 0).
Proof. repeat split; vm_compute; reflexivity. Qed.

(** ** The two totals *)





(** X9. [total] and [total_money] check their arguments before they
    consult the store, and in the same order: with an argument count other
    than two both return the argument-count error; otherwise the month is
    parsed first, and the first argument that is not an [int64] in decimal
    gives its [strconv] error, whatever the store holds. *)
Theorem totals_argument_errors (args : list string) (db : Store) :
  (List.length args <> 2%nat ->
     total args db = Err ErrArgCount /\ total_money args db = Err ErrArgCount)
  /\ (forall month_s year_s e,
        args = [month_s; year_s] -> strconv.ParseInt month_s = Err e ->
        total args db = Err e /\ total_money args db = Err e)
  /\ (forall month_s year_s m e,
        args = [month_s; year_s] -> strconv.ParseInt month_s = Ok m ->
        strconv.ParseInt year_s = Err e ->
        total args db = Err e /\ total_money args db = Err e).
Proof.
  split; [| split].
  - intros Hlen.
    destruct args as [| a [| b [| c rest]]]; cbn in Hlen; try lia;
      split; reflexivity.
  - intros ms ys e -> He. unfold total, total_money. rewrite He.
    split; reflexivity.
  - intros ms ys m e -> Hm He. unfold total, total_money. rewrite Hm, He.
    split; reflexivity.
Qed.

(** X11. [total] and [total_money] aggregate the same rows: whenever
    [total] fails, [total_money] fails with the same error; whenever [total]
    returns a sum, [total_money] is that sum divided by 3600000000000.0 and
    multiplied by the current wage and by one minus the current tax (an
    error if that product is NaN); and [total_money] returns a value only
    if [total] does. *)
Theorem totals_agree (args : list string) (db : Store) :
  (forall e, total args db = Err e -> total_money args db = Err e)
  /\ (forall s t,
        db = Some t -> total args db = Ok s ->
        total_money args db =
        sqlite.scan
          (sqlite.real
             (Float64.of_Z s / 3600000000000
              * sqlite.coalesce (sqlite.first_rate (wage t)) 0
              * (1 - sqlite.coalesce (sqlite.first_rate (tax t)) 0))%float))
  /\ (forall x, total_money args db = Ok x -> exists s, total args db = Ok s).
Proof.
  assert (Hsame : forall r : error,
            (forall e, @Err time.Duration r = Err e -> @Err float r = Err e)
            /\ (forall s t,
                  db = Some t -> @Err time.Duration r = Ok s ->
                  @Err float r =
                  sqlite.scan
                    (sqlite.real
                       (Float64.of_Z s / 3600000000000
                        * sqlite.coalesce (sqlite.first_rate (wage t)) 0
                        * (1 - sqlite.coalesce (sqlite.first_rate (tax t)) 0))%float))
            /\ (forall x, @Err float r = Ok x ->
                          exists s, @Err time.Duration r = Ok s)).
  { intros r. split; [| split].
    - intros e [= <-]. reflexivity.
    - intros s t _ H. discriminate H.
    - intros x H. discriminate H. }
  unfold total, total_money.
  destruct args as [| a [| b [| c rest]]]; try apply Hsame.
  destruct (strconv.ParseInt a) as [m | e0 |]; cbn [bind]; try apply Hsame.
  2: { split; [| split]; intros; discriminate. }
  destruct (strconv.ParseInt b) as [y | e0 |]; cbn [bind]; try apply Hsame.
  2: { split; [| split]; intros; discriminate. }
  destruct (window m y) as [lo hi].
  unfold query_total, query_total_money.
  destruct db as [t |]; [| apply Hsame].
  destruct (sqlite.sum _) as [so | e0 |]; cbn [bind].
  - split; [discriminate |]. split.
    + intros s t0 [= <-] [= <-]. now rewrite FloatFacts.money_expr_product.
    + intros x _. eexists. reflexivity.
  - apply Hsame.
  - split; [| split]; intros; discriminate.
Qed.



(** ** The commands that write *)

Lemma map_const_map {A B C} (x : C) (f : A -> B) (l : list A) :
  map (fun _ => x) (map f l) = map (fun _ => x) l.
Proof. induction l as [| a l IH]; cbn; [reflexivity | now rewrite IH]. Qed.

(** How [set_tax] leaves the store: as it was, or with the tax table
    overwritten. *)
Lemma set_tax_store (ParseFloat : string -> result float)
    (args : list string) (db : Store) :
  set_tax ParseFloat args db = (fst (set_tax ParseFloat args db), db)
  /\ (forall r, fst (set_tax ParseFloat args db) <> Ok r)
  \/ exists a r t,
       args = [a] /\ ParseFloat a = Ok r /\ db = Some t
       /\ set_tax ParseFloat args db =
          (Ok r,
           Some (mkTables (time_entries t)
                          (map (fun _ => sqlite.bind_double r) (tax t))
                          (wage t))).
Proof.
  unfold set_tax, update_tax.
  destruct args as [| a [| b rest]]; try (left; split; [reflexivity | discriminate]).
  destruct (ParseFloat a) as [r | e |] eqn:Ha;
    try (left; split; [reflexivity | discriminate]).
  destruct db as [t |]; [| left; split; [reflexivity | discriminate]].
  right. exists a, r, t. repeat split. exact Ha.
Qed.

Lemma set_wage_store (ParseFloat : string -> result float)
    (args : list string) (db : Store) :
  set_wage ParseFloat args db = (fst (set_wage ParseFloat args db), db)
  /\ (forall r, fst (set_wage ParseFloat args db) <> Ok r)
  \/ exists a r t,
       args = [a] /\ ParseFloat a = Ok r /\ db = Some t
       /\ set_wage ParseFloat args db =
          (Ok r,
           Some (mkTables (time_entries t) (tax t)
                          (map (fun _ => sqlite.bind_double r) (wage t)))).
Proof.
  unfold set_wage, update_wage.
  destruct args as [| a [| b rest]]; try (left; split; [reflexivity | discriminate]).
  destruct (ParseFloat a) as [r | e |] eqn:Ha;
    try (left; split; [reflexivity | discriminate]).
  destruct db as [t |]; [| left; split; [reflexivity | discriminate]].
  right. exists a, r, t. repeat split. exact Ha.
Qed.

(** How [add] leaves the store: as it was, or with one more entry. *)
Lemma add_store (ParseFloat : string -> result float) (env : Env)
    (args : list string) (db : Store) :
  add ParseFloat env args db = (fst (add ParseFloat env args db), db)
  /\ fst (add ParseFloat env args db) <> Ok tt
  \/ exists t e,
       db = Some t
       /\ add ParseFloat env args db =
          (Ok tt,
           Some (mkTables (time_entries t ++ [e])%list (tax t) (wage t))).
Proof.
  unfold add.
  destruct args as [| darg words]; [left; split; [reflexivity | discriminate] |].
  destruct (parse_duration ParseFloat darg) as [d | e |];
    try (left; split; [reflexivity | discriminate]).
  unfold insert_entry.
  destruct db as [t |]; [| left; split; [reflexivity | discriminate]].
  right. eexists. eexists. split; reflexivity.
Qed.

Lemma initialize_store (env : Env) (db : Store) :
  initialize env db = (fst (initialize env db), db)
  /\ fst (initialize env db) <> Ok tt
  \/ db = None /\ initialize env db = (Ok tt, Some initial_tables).
Proof.
  unfold initialize.
  destruct (mkdir_ok env); cbn [negb];
    [| left; split; [reflexivity | discriminate]].
  destruct db as [t |]; [left; split; [reflexivity | discriminate] |].
  right. split; reflexivity.
Qed.

(** X2. A command that does not succeed leaves the store as it was:
    [set_tax], [set_wage], [add] and [initialize] either return without an
    error or return the store they were given. *)
Theorem failed_commands_leave_store
    (ParseFloat : string -> result float) (env : Env)
    (args : list string) (db : Store) :
  ((exists r, fst (set_tax ParseFloat args db) = Ok r)
   \/ snd (set_tax ParseFloat args db) = db)
  /\ ((exists r, fst (set_wage ParseFloat args db) = Ok r)
      \/ snd (set_wage ParseFloat args db) = db)
  /\ (fst (add ParseFloat env args db) = Ok tt
      \/ snd (add ParseFloat env args db) = db)
  /\ (fst (initialize env db) = Ok tt \/ snd (initialize env db) = db).
Proof.
  split; [| split; [| split]].
  - destruct (set_tax_store ParseFloat args db)
      as [[H _] | (a & r & t & _ & _ & _ & H)]; rewrite H.
    + now right.
    + left. now exists r.
  - destruct (set_wage_store ParseFloat args db)
      as [[H _] | (a & r & t & _ & _ & _ & H)]; rewrite H.
    + now right.
    + left. now exists r.
  - destruct (add_store ParseFloat env args db)
      as [[H _] | (t & e & _ & H)]; rewrite H; [now right | now left].
  - destruct (initialize_store env db) as [[H _] | [_ H]]; rewrite H;
      [now right | now left].
Qed.

(** X6. The last rate written wins: when the second argument parses,
    [set_tax b] after [set_tax a] returns what [set_tax b] alone returns
    and leaves the store [set_tax b] alone leaves; likewise for
    [set_wage]. *)
Theorem rate_last_write_wins
    (ParseFloat : string -> result float) (a b : string) (rb : float)
    (db : Store)
    (Hb : ParseFloat b = Ok rb) :
  set_tax ParseFloat [b] (snd (set_tax ParseFloat [a] db)) =
    set_tax ParseFloat [b] db
  /\ set_wage ParseFloat [b] (snd (set_wage ParseFloat [a] db)) =
     set_wage ParseFloat [b] db.
Proof.
  unfold set_tax, set_wage, update_tax, update_wage. rewrite Hb.
  destruct (ParseFloat a) as [ra | e |]; destruct db as [t |];
    cbn [snd time_entries tax wage]; rewrite ?map_const_map;
    split; reflexivity.
Qed.

Lemma rate_last_write_wins_witness :
  DecimalFloat.ParseFloat_decimal "0.25" = Ok 0.25%float
  /\ set_tax DecimalFloat.ParseFloat_decimal ["0.25"]
       (snd (set_tax DecimalFloat.ParseFloat_decimal ["0.5"]
                     (Some Sample.tables))) =
     (Ok 0.25%float,
      Some (mkTables (time_entries Sample.tables) [Some 0.25%float]
                     [Some 100%float])).
Proof.
  split; [reflexivity |].
  rewrite (proj1 (rate_last_write_wins DecimalFloat.ParseFloat_decimal
                    "0.5" "0.25" 0.25%float (Some Sample.tables) eq_refl)).
  reflexivity.
Defined.

(** X7. The two rate setters are independent: each returns the same
    result whether or not the other ran before it, and the store after both
    does not depend on their order. *)
Theorem rate_setters_commute
    (ParseFloat : string -> result float) (a b : list string) (db : Store) :
  fst (set_wage ParseFloat b (snd (set_tax ParseFloat a db))) =
    fst (set_wage ParseFloat b db)
  /\ fst (set_tax ParseFloat a (snd (set_wage ParseFloat b db))) =
     fst (set_tax ParseFloat a db)
  /\ snd (set_wage ParseFloat b (snd (set_tax ParseFloat a db))) =
     snd (set_tax ParseFloat a (snd (set_wage ParseFloat b db))).
Proof.
  unfold set_tax, set_wage, update_tax, update_wage.
  destruct a as [| x [| x' a']], b as [| z [| z' b']];
    cbn [fst snd]; try (repeat split; reflexivity);
    try (destruct (ParseFloat x) as [r | e |]; destruct db as [t |];
         cbn [fst snd]; repeat split; reflexivity);
    try (destruct (ParseFloat z) as [q | e |]; destruct db as [t |];
         cbn [fst snd]; repeat split; reflexivity).
  destruct (ParseFloat x) as [r | e |], (ParseFloat z) as [q | e' |],
    db as [t |]; cbn [fst snd time_entries tax wage];
    repeat split; reflexivity.
Qed.



(** X16. [add] looks at its first argument before it writes: an empty
    first argument panics (the index of the unit byte is -1); a last byte
    other than [h], [m], [s] is rejected before the number is read; a number
    that does not parse is rejected before the store is consulted; only then
    does a missing schema surface as the storage error.  In all four cases
    the store is left as it was. *)
Theorem add_checks_before_writing
    (ParseFloat : string -> result float) (env : Env)
    (words : list string) (db : Store) :
  add ParseFloat env (EmptyString :: words) db = (Panic, db)
  /\ (forall prefix u,
        ~ In u ["h"; "m"; "s"]%char ->
        add ParseFloat env ((prefix ++ String u "") :: words) db =
        (Err (ErrInvalidUnit (prefix ++ String u "")), db))
  /\ (forall prefix u e,
        In u ["h"; "m"; "s"]%char -> ParseFloat prefix = Err e ->
        add ParseFloat env ((prefix ++ String u "") :: words) db =
        (Err e, db))
  /\ (forall prefix u n,
        In u ["h"; "m"; "s"]%char -> ParseFloat prefix = Ok n ->
        add ParseFloat env ((prefix ++ String u "") :: words) None =
        (Err ErrNoSuchTable, None)).
Proof.
  split; [reflexivity |]. unfold add, parse_duration.
  split; [| split].
  - intros prefix u Hu. now rewrite split_last_app, (unit_of_other u Hu).
  - intros prefix u e Hu He. rewrite split_last_app.
    destruct (unit_of_float u Hu) as [unit [-> _]]. now rewrite He.
  - intros prefix u n Hu Hn. rewrite split_last_app.
    destruct (unit_of_float u Hu) as [unit [-> _]]. now rewrite Hn.
Qed.

(** X1. [initialize] composes with the totals and is not idempotent: when
    the directory can be made, it turns a store without schema into one with
    no entries and one row of rate 0 in each rate table; on that store
    [total] returns 0 and [total_money] returns 0.0 for every window; and
    on any store that has a schema it fails with the table-exists error and
    changes nothing. *)
Theorem initialize_then_totals (env : Env)
    (Hmk : mkdir_ok env = true) :
  initialize env None = (Ok tt, Some initial_tables)
  /\ time_entries initial_tables = []
  /\ tax initial_tables = [Some 0%float]
  /\ wage initial_tables = [Some 0%float]
  /\ (forall month_s year_s m y,
        strconv.ParseInt month_s = Ok m -> strconv.ParseInt year_s = Ok y ->
        total [month_s; year_s] (Some initial_tables) = Ok 0
        /\ total_money [month_s; year_s] (Some initial_tables) = Ok 0%float)
  /\ (forall t, initialize env (Some t) = (Err ErrTableExists, Some t)).
Proof.
  unfold initialize. rewrite Hmk. cbn [negb].
  repeat (split; [reflexivity |]). split.
  - intros ms ys m y Hm Hy.
    rewrite (total_parsed m y), (total_money_parsed m y) by assumption.
    split; reflexivity.
  - reflexivity.
Qed.

Lemma initialize_then_totals_witness :
  mkdir_ok Sample.env = true
  /\ initialize Sample.env None = (Ok tt, Some initial_tables)
  /\ total_money ["12"; "1999"] (Some initial_tables) = Ok 0%float
  /\ initialize Sample.env (snd (initialize Sample.env None)) =
     (Err ErrTableExists, Some initial_tables).
Proof.
  destruct (initialize_then_totals Sample.env eq_refl)
    as (Hinit & _ & _ & _ & Htot & Hagain).
  split; [reflexivity |]. split; [exact Hinit |]. split.
  - apply (Htot "12"%string "1999"%string 12 1999); reflexivity.
  - rewrite Hinit. apply Hagain.
Defined.

(** ** The dispatcher, arm by arm *)

(** Split the goal by the command name [cmd], as the [switch] does. *)
Ltac split_command cmd :=
  destruct (String.eqb_spec cmd "add") as [-> | ?];
  [| destruct (String.eqb_spec cmd "total") as [-> | ?];
     [| destruct (String.eqb_spec cmd "total_money") as [-> | ?];
        [| destruct (String.eqb_spec cmd "init") as [-> | ?];
           [| destruct (String.eqb_spec cmd "set_tax") as [-> | ?];
              [| destruct (String.eqb_spec cmd "set_wage") as [-> | ?]]]]]].

(** The store a run leaves: the one it found, or the one the writing
    command of its arm returns. *)
Lemma main_store (ParseFloat : string -> result float) (env : Env)
    (Args : list string) (disk : Store) :
  let after := store (snd (main ParseFloat env Args disk)) in
  after = disk
  \/ (exists prog rest,
        Args = prog :: "add"%string :: rest
        /\ after = snd (add ParseFloat env rest disk))
  \/ (exists prog rest,
        Args = prog :: "init"%string :: rest
        /\ after = snd (initialize env disk))
  \/ (exists prog rest,
        Args = prog :: "set_tax"%string :: rest
        /\ after = snd (set_tax ParseFloat rest disk))
  \/ (exists prog rest,
        Args = prog :: "set_wage"%string :: rest
        /\ after = snd (set_wage ParseFloat rest disk)).
Proof.
  unfold main, setup.
  destruct (home env) as [h |]; [| left; reflexivity].
  destruct Args as [| prog [| cmd rest]]; try (left; reflexivity).
  cbn [store start_proc stdout].
  split_command cmd.
  - right; left. exists prog, rest. split; [reflexivity |].
    destruct (add ParseFloat env rest disk) as [[[] | e |] db']; reflexivity.
  - left. destruct (total rest disk); reflexivity.
  - left. destruct (total_money rest disk); reflexivity.
  - right; right; left. exists prog, rest. split; [reflexivity |].
    destruct (initialize env disk) as [[[] | e |] db']; reflexivity.
  - right; right; right; left. exists prog, rest. split; [reflexivity |].
    destruct (set_tax ParseFloat rest disk) as [[r | e |] db']; reflexivity.
  - right; right; right; right. exists prog, rest. split; [reflexivity |].
    destruct (set_wage ParseFloat rest disk) as [[r | e |] db']; reflexivity.
  - left. reflexivity.
Qed.

(** X3. The rate tables keep exactly one row each: if that holds of the
    store a run of [main] finds (or there is no schema yet), it holds of the
    store the run leaves, whatever the arguments.  [initialize] inserts the
    one row, the setters overwrite without inserting or deleting, and no
    other statement touches the two tables. *)
Theorem one_rate_row_preserved
    (ParseFloat : string -> result float) (env : Env)
    (Args : list string) (disk : Store)
    (Hrow : one_rate_row disk) :
  one_rate_row (store (snd (main ParseFloat env Args disk))).
Proof.
  destruct (main_store ParseFloat env Args disk)
    as [-> | [(prog & rest & _ & ->) | [(prog & rest & _ & ->)
       | [(prog & rest & _ & ->) | (prog & rest & _ & ->)]]]].
  - exact Hrow.
  - destruct (add_store ParseFloat env rest disk)
      as [[-> _] | (t & e & -> & ->)]; [exact Hrow | exact Hrow].
  - destruct (initialize_store env disk) as [[-> _] | [-> ->]];
      [exact Hrow | split; reflexivity].
  - destruct (set_tax_store ParseFloat rest disk)
      as [[-> _] | (a & r & t & _ & _ & -> & ->)]; [exact Hrow |].
    cbn in *. now rewrite length_map.
  - destruct (set_wage_store ParseFloat rest disk)
      as [[-> _] | (a & r & t & _ & _ & -> & ->)]; [exact Hrow |].
    cbn in *. now rewrite length_map.
Qed.

Lemma one_rate_row_preserved_witness :
  one_rate_row (Some Sample.tables)
  /\ one_rate_row
       (store (snd (main DecimalFloat.ParseFloat_decimal Sample.env
                         ["time_tracker"; "set_wage"; "120"]
                         (Some Sample.tables)))).
Proof.
  split; [split; reflexivity |].
  apply one_rate_row_preserved. split; reflexivity.
Defined.

(** X4. Entries are only ever appended: the entries a run of [main]
    leaves are the entries it found followed by at most one new entry, and a
    new entry appears only when the command is [add].  No command updates or
    deletes a row of [time_entries]. *)
Theorem entries_append_only
    (ParseFloat : string -> result float) (env : Env)
    (Args : list string) (disk : Store) :
  exists added,
    entries_of (store (snd (main ParseFloat env Args disk))) =
      (entries_of disk ++ added)%list
    /\ (List.length added <= 1)%nat
    /\ (added = [] \/ exists prog rest, Args = prog :: "add"%string :: rest).
Proof.
  destruct (main_store ParseFloat env Args disk)
    as [-> | [(prog & rest & HA & ->) | [(prog & rest & _ & ->)
       | [(prog & rest & _ & ->) | (prog & rest & _ & ->)]]]].
  - exists []. rewrite app_nil_r. repeat split; auto.
  - destruct (add_store ParseFloat env rest disk)
      as [[-> _] | (t & e & -> & ->)].
    + exists []. rewrite app_nil_r. repeat split; auto.
    + exists [e]. repeat split; auto. right. now exists prog, rest.
  - exists []. rewrite app_nil_r.
    destruct (initialize_store env disk) as [[-> _] | [-> ->]];
      repeat split; auto.
  - exists []. rewrite app_nil_r.
    destruct (set_tax_store ParseFloat rest disk)
      as [[-> _] | (a & r & t & _ & _ & -> & ->)]; repeat split; auto.
  - exists []. rewrite app_nil_r.
    destruct (set_wage_store ParseFloat rest disk)
      as [[-> _] | (a & r & t & _ & _ & -> & ->)]; repeat split; auto.
Qed.




(** X15. Every run of [main] that does not panic writes exactly one
    message to the standard output (a result, a failure, the usage text or
    the setup failure); a run that panics writes none. *)
Theorem one_message_per_run
    (ParseFloat : string -> result float) (env : Env)
    (Args : list string) (disk : Store) :
  let run := main ParseFloat env Args disk in
  List.length (stdout (snd run)) =
  if crashed (fst run) then 0%nat else 1%nat.
Proof.
  intros run. unfold run, main, setup.
  destruct (home env) as [h |]; [| reflexivity].
  destruct Args as [| prog [| cmd rest]]; try reflexivity.
  cbn [store start_proc].
  split_command cmd.
  - destruct (add ParseFloat env rest disk) as [[[] | e |] db']; reflexivity.
  - destruct (total rest disk); reflexivity.
  - destruct (total_money rest disk); reflexivity.
  - destruct (initialize env disk) as [[[] | e |] db']; reflexivity.
  - destruct (set_tax ParseFloat rest disk) as [[r | e |] db']; reflexivity.
  - destruct (set_wage ParseFloat rest disk) as [[r | e |] db']; reflexivity.
  - reflexivity.
Qed.

(** X17. When the connection stays open: a run of [main] ends with [db]
    still open exactly when the setup succeeded and either no command name
    was given ([os.Exit] before [cleanup]), or the command is [set_tax] or
    [set_wage], or the run panicked.  On every other path the connection is
    closed, or was never opened. *)
Theorem connection_left_open
    (ParseFloat : string -> result float) (env : Env)
    (Args : list string) (disk : Store) :
  let run := main ParseFloat env Args disk in
  db_open (snd run) =
  has_home env
  && ((List.length Args <? 2)%nat || sets_rate Args || crashed (fst run)).
Proof.
  intros run. unfold run, main, setup, has_home, sets_rate.
  destruct (home env) as [h |]; [| reflexivity].
  destruct Args as [| prog [| cmd rest]]; try reflexivity.
  cbn [store start_proc existsb List.length Nat.ltb Nat.leb orb andb].
  split_command cmd.
  - destruct (add ParseFloat env rest disk) as [[[] | e |] db']; reflexivity.
  - destruct (total rest disk); reflexivity.
  - destruct (total_money rest disk); reflexivity.
  - destruct (initialize env disk) as [[[] | e |] db']; reflexivity.
  - destruct (set_tax ParseFloat rest disk) as [[r | e |] db']; reflexivity.
  - destruct (set_wage ParseFloat rest disk) as [[r | e |] db']; reflexivity.
  - reflexivity.
Qed.

(** ** The earlier variant *)

(** X18. [add] of the earlier variant stores [args[1]] alone: after a
    duration that parses, it panics when no description follows (the index
    [args[1]] is out of range), and otherwise inserts an entry whose
    description is the first word after the duration, dropping any further
    words; without a schema it returns the storage error. *)
Theorem legacy_add_description
    (ParseFloat : string -> result float) (env : Env)
    (darg : string) (d : time.Duration)
    (Hd : parse_duration ParseFloat darg = Ok d) :
  (forall db, Legacy.add ParseFloat env [darg] db = (Panic, db))
  /\ (forall descr more es,
        Legacy.add ParseFloat env (darg :: descr :: more) (Some es) =
        (Ok tt,
         Some (es ++ [mkEntry (Z.of_nat (List.length es) + 1)
                              (time.Add (now env) (GoInt.neg64 d)) d
                              descr])%list))
  /\ (forall descr more,
        Legacy.add ParseFloat env (darg :: descr :: more) None =
        (Err ErrNoSuchTable, None)).
Proof.
  unfold Legacy.add. rewrite Hd. repeat split.
Qed.

Lemma legacy_add_description_witness :
  parse_duration DecimalFloat.ParseFloat_decimal "2h" = Ok (2 * time.Hour)
  /\ Legacy.add DecimalFloat.ParseFloat_decimal Sample.env ["2h"] (Some []) =
     (Panic, Some [])
  /\ Legacy.add DecimalFloat.ParseFloat_decimal Sample.env
       ["2h"; "code"; "review"] (Some []) =
     (Ok tt,
      Some [mkEntry 1 (now Sample.env - 2 * time.Hour) (2 * time.Hour)
                    "code"]).
Proof.
  destruct (legacy_add_description DecimalFloat.ParseFloat_decimal Sample.env
              "2h" (2 * time.Hour) eq_refl) as (Hone & Htwo & _).
  split; [reflexivity |]. split; [apply Hone |].
  rewrite Htwo. reflexivity.
Defined.

(** X19. The later variant extends the earlier one on [time_entries]:
    [total] is the same function of the entries in both; with a duration
    and exactly one description word, [add] returns the same result and
    leaves the same entries in both; with a duration alone, where the
    earlier [add] panics, the later one inserts an entry with an empty
    description. *)
Theorem later_variant_extends_earlier
    (ParseFloat : string -> result float) (env : Env) (db : Store) :
  (forall args, Legacy.total args (entries_view db) = total args db)
  /\ (forall darg descr,
        Legacy.add ParseFloat env [darg; descr] (entries_view db) =
        (fst (add ParseFloat env [darg; descr] db),
         entries_view (snd (add ParseFloat env [darg; descr] db))))
  /\ (forall darg d t,
        parse_duration ParseFloat darg = Ok d -> db = Some t ->
        Legacy.add ParseFloat env [darg] (entries_view db) =
          (Panic, entries_view db)
        /\ add ParseFloat env [darg] db =
           (Ok tt,
            Some (mkTables
                    (time_entries t
                     ++ [mkEntry (Z.of_nat (List.length (time_entries t)) + 1)
                                 (time.Add (now env) (GoInt.neg64 d)) d ""])%list
                    (tax t) (wage t)))).
Proof.
  split; [| split].
  - intros args. unfold Legacy.total, total.
    destruct args as [| a [| b [| c rest]]]; try reflexivity.
    destruct (strconv.ParseInt a) as [m | e |]; cbn [bind]; try reflexivity.
    destruct (strconv.ParseInt b) as [y | e |]; cbn [bind]; try reflexivity.
    destruct (window m y) as [lo hi]. now destruct db.
  - intros darg descr. unfold Legacy.add, add.
    destruct (parse_duration ParseFloat darg) as [d | e |]; try reflexivity.
    now destruct db.
  - intros darg d t Hd ->. unfold Legacy.add, add. rewrite Hd.
    split; reflexivity.
Qed.

(** X20. In the earlier variant every arm of the [switch] falls through to
    [cleanup]: a run ends with the connection open only when no command name
    was given or the run panicked.  The command names the later variant
    added are unknown to it: it prints the usage text, leaves the store as
    it was and returns normally. *)
Theorem legacy_main_cleans_up
    (ParseFloat : string -> result float) (env : Env)
    (Args : list string) (disk : Legacy.Store) :
  let run := Legacy.main ParseFloat env Args disk in
  Legacy.db_open (snd run) =
    has_home env && ((List.length Args <? 2)%nat || crashed (fst run))
  /\ (forall prog cmd rest,
        has_home env = true -> Args = prog :: cmd :: rest ->
        In cmd ["total_money"; "set_tax"; "set_wage"]%string ->
        fst run = Returned
        /\ Legacy.stdout (snd run) = [MsgUsage]
        /\ Legacy.store (snd run) = disk).
Proof.
  intros run. unfold run, Legacy.main, Legacy.setup, has_home.
  destruct (home env) as [h |].
  2: { split; [reflexivity | intros; discriminate]. }
  destruct Args as [| prog [| cmd rest]].
  1, 2: split; [reflexivity | intros; discriminate].
  cbn [Legacy.store Legacy.start_proc List.length Nat.ltb Nat.leb orb andb].
  split.
  - destruct (String.eqb_spec cmd "add") as [-> | ?];
      [| destruct (String.eqb_spec cmd "total") as [-> | ?];
         [| destruct (String.eqb_spec cmd "init") as [-> | ?]]].
    + destruct (Legacy.add ParseFloat env rest disk) as [[[] | e |] db'];
        reflexivity.
    + destruct (Legacy.total rest disk); reflexivity.
    + destruct (Legacy.initialize env disk) as [[[] | e |] db']; reflexivity.
    + reflexivity.
  - intros prog0 cmd0 rest0 _ [= <- <- <-] Hin. cbn [In] in Hin.
    destruct Hin as [<- | [<- | [<- | []]]];
      eval_command_names; repeat split; reflexivity.
Qed.
